(** * keystone/api/groups.py: the /v3/groups resources

    A shallow embedding of the flask-restful resources of
    [keystone/api/groups.py] and the properties of the order in which they
    build the enforcement target, call the policy enforcer and call the
    identity backend.

    The handlers are written in a small state-and-exception monad.  The
    state is the identity backend together with the list of calls made to
    the collaborators ([PROVIDERS.identity_api] and [ENFORCER]), so that
    the order of the calls can be stated.  The collaborators themselves
    live outside the file and are interfaces here. *)

From Stdlib Require Import ZArith.
From stdpp Require Import base option list strings gmap.

Open Scope string_scope.

(** ** Data *)

(** JSON scalars, the attribute values of group and user references. *)
Inductive value :=
| VNull
| VBool (b : bool)
| VNum (n : Z)
| VStr (s : string).

#[global] Instance value_eq_dec : EqDecision value.
Proof. solve_decision. Defined.

(** A group or user reference is a Python dict of attributes; the
    enforcement target is a dict whose values are such references. *)
Abbreviation dict := (gmap string value).
Abbreviation target_dict := (gmap string dict).

(** Driver hints: the recognised query filters with their values. *)
Abbreviation driver_hints := (list (string * string)).

(** The audit initiator attached to mutating backend calls. *)
Inductive initiator := Initiator (user_id : string).

(** The exception kinds of [keystone.exception] the resources meet.  The
    file names [GroupNotFound] and [UserNotFound]; the others are raised
    by collaborators.  [OtherError] stands for every other class. *)
Inductive exn :=
| GroupNotFound
| UserNotFound
| NotFound
| Forbidden
| ValidationError
| OtherError (name : string).

#[global] Instance exn_eq_dec : EqDecision exn.
Proof. solve_decision. Defined.

(** The outcome of a Python call: a value or a raised exception. *)
Inductive result (A : Type) :=
| Ok (a : A)
| Raise (e : exn).
Arguments Ok {A} a.
Arguments Raise {A} e.

Definition is_Ok {A} (r : result A) : bool :=
  match r with Ok _ => true | Raise _ => false end.

(** [http_client] status codes. *)
Definition CREATED : Z := 201.
Definition NO_CONTENT : Z := 204.

(** What a handler returns: a body alone, or a pair of an optional body
    and a status code. *)
Inductive response (Body : Type) :=
| Bare (body : Body)
| WithStatus (body : option Body) (status : Z).
Arguments Bare {Body} body.
Arguments WithStatus {Body} body status.

(** The validation schemas of [keystone.identity.schema] used here. *)
Inductive schema := group_create | group_update.

(** The keyword arguments of [ENFORCER.enforce_call]. *)
Record enforce_args := EnforceArgs {
  action : string;
  target_attr : option target_dict;
  filters : option (list string)
}.

(** ** Calls to the collaborators, as recorded in the trace *)

Inductive event :=
| CallEnforce (args : enforce_args)
| CallGetGroup (group_id : string)
| CallGetUser (user_id : string)
| CallListGroups (domain_scope : option string) (hints : driver_hints)
| CallCreateGroup (group : dict)
| CallUpdateGroup (group_id : string) (group : dict)
| CallDeleteGroup (group_id : string)
| CallListUsersInGroup (group_id : string) (hints : driver_hints)
| CallCheckUserInGroup (user_id group_id : string)
| CallAddUserToGroup (user_id group_id : string)
| CallRemoveUserFromGroup (user_id group_id : string).

Definition is_enforce (ev : event) : bool :=
  match ev with CallEnforce _ => true | _ => false end.

(** ** Collaborator interfaces *)

(** [PROVIDERS.identity_api] over a backend state [B].  Lookups, listings
    and the membership check read the backend; create, update, delete,
    add and remove return the new backend as well, also when they raise. *)
Class IdentityAPI (B : Type) := {
  backend_get_group : string → B → result dict;
  backend_get_user : string → B → result dict;
  backend_list_groups :
    option string → driver_hints → B → result (list dict);
  backend_list_users_in_group :
    string → driver_hints → B → result (list dict);
  backend_check_user_in_group : string → string → B → result unit;
  backend_create_group : dict → initiator → B → result dict * B;
  backend_update_group : string → dict → initiator → B → result dict * B;
  backend_delete_group : string → initiator → B → result unit * B;
  backend_add_user_to_group :
    string → string → initiator → B → result unit * B;
  backend_remove_user_from_group :
    string → string → initiator → B → result unit * B
}.

(** [rbac_enforcer.RBACEnforcer]: the decision for the caller of the
    current request; [Raise Forbidden] on deny. *)
Class RBACEnforcer := {
  enforcer_decision : enforce_args → result unit
}.

(** The helpers of [ks_flask.ResourceBase], [ks_flask] and
    [keystone.common.validation] that the resources call; they read the
    current request and do not touch the identity backend. *)
Class ResourceBase (Body : Type) := {
  wrap_member : string → dict → Body;
  wrap_collection :
    option string → list dict → driver_hints → option string → Body;
  build_driver_hints : list string → driver_hints;
  _get_domain_id_for_list_request : result (option string);
  _normalize_dict : dict → dict;
  _normalize_domain_id : dict → result dict;
  lazy_validate : schema → dict → result unit;
  audit_initiator : initiator;
  build_audit_initiator : initiator
}.

(** ** The monad of the handlers *)

Record world (B : Type) := World {
  backend : B;
  trace : list event
}.
Arguments World {B} backend trace.
Arguments backend {B} w.
Arguments trace {B} w.

Definition M (B A : Type) : Type := world B → result A * world B.

Definition ret {B A} (a : A) : M B A := λ w, (Ok a, w).

Definition raise {B A} (e : exn) : M B A := λ w, (Raise e, w).

Definition bind {B A C} (m : M B A) (k : A → M B C) : M B C :=
  λ w, match m w with
       | (Ok a, w') => k a w'
       | (Raise e, w') => (Raise e, w')
       end.

(** A helper that does not touch the collaborators. *)
Definition lift {B A} (r : result A) : M B A := λ w, (r, w).

(** [try: body  except exc: handler].  The file only catches the leaf
    classes [GroupNotFound] and [UserNotFound], so the class test is
    equality. *)
Definition try_except {B A} (body : M B A) (exc : exn) (handler : M B A)
  : M B A :=
  λ w, match body w with
       | (Ok a, w') => (Ok a, w')
       | (Raise e, w') =>
           if decide (e = exc) then handler w' else (Raise e, w')
       end.

(** A call to a collaborator is appended to the trace when it is made. *)
Definition log {B} (ev : event) (w : world B) : world B :=
  World (backend w) (trace w ++ [ev]).

Definition query {B A} (ev : event) (f : B → result A) : M B A :=
  λ w, (f (backend w), log ev w).

Definition command {B A} (ev : event) (f : B → result A * B) : M B A :=
  λ w, let '(r, b') := f (backend w) in (r, World b' (trace w ++ [ev])).

#[global] Instance M_ret {B} : MRet (M B) := λ A, @ret B A.
#[global] Instance M_bind {B} : MBind (M B) := λ A C k m, @bind B A C m k.

(** Run a handler on a backend with an empty trace. *)
Definition run {B A} (m : M B A) (b : B) : result A * world B :=
  m (World b []).

(** ** The module-level names [PROVIDERS.identity_api] and [ENFORCER] *)

Module identity_api.
Section calls.
Context {B : Type} {api : IdentityAPI B}.

Definition get_group (group_id : string) : M B dict :=
    query (CallGetGroup group_id) (backend_get_group group_id).

Definition get_user (user_id : string) : M B dict :=
    query (CallGetUser user_id) (backend_get_user user_id).

Definition list_groups (domain_scope : option string) (hints : driver_hints)
    : M B (list dict) :=
    query (CallListGroups domain_scope hints)
          (backend_list_groups domain_scope hints).

Definition list_users_in_group (group_id : string) (hints : driver_hints)
    : M B (list dict) :=
    query (CallListUsersInGroup group_id hints)
          (backend_list_users_in_group group_id hints).

Definition check_user_in_group (user_id group_id : string) : M B unit :=
    query (CallCheckUserInGroup user_id group_id)
          (backend_check_user_in_group user_id group_id).

Definition create_group (group : dict) (init : initiator) : M B dict :=
    command (CallCreateGroup group) (backend_create_group group init).

Definition update_group (group_id : string) (group : dict)
      (init : initiator) : M B dict :=
    command (CallUpdateGroup group_id group)
            (backend_update_group group_id group init).

Definition delete_group (group_id : string) (init : initiator)
    : M B unit :=
    command (CallDeleteGroup group_id) (backend_delete_group group_id init).

Definition add_user_to_group (user_id group_id : string)
      (init : initiator) : M B unit :=
    command (CallAddUserToGroup user_id group_id)
            (backend_add_user_to_group user_id group_id init).

Definition remove_user_from_group (user_id group_id : string)
      (init : initiator) : M B unit :=
    command (CallRemoveUserFromGroup user_id group_id)
            (backend_remove_user_from_group user_id group_id init).
End calls.
End identity_api.

Module ENFORCER.
Section calls.
Context {B : Type} {enforcer : RBACEnforcer}.

Definition enforce_call (action : string) (target_attr : option target_dict)
      (filters : option (list string)) : M B unit :=
  let args := EnforceArgs action target_attr filters in
  λ w, (enforcer_decision args, log (CallEnforce args) w).
End calls.
End ENFORCER.

(** Modelled from the spec: [ResourceBase._require_matching_id] is not in
    this file.  An update fails with a validation error when the body
    carries an [id] field differing from the path id, and passes when the
    field is absent or equal.  The method reads the path id from the view
    arguments of the request; here it is the first argument. *)
Definition _require_matching_id (path_id : string) (ref : dict)
  : result unit :=
  match ref !! "id" with
  | None => Ok tt
  | Some v =>
      if decide (v = VStr path_id) then Ok tt else Raise ValidationError
  end.

(** ** The resources *)

(** [GroupsResource.get_member_from_driver] is a class attribute that
    only the enforcer reads; it belongs to [RBACEnforcer] here. *)
Module GroupsResource.
Section resource.
Context {B Body : Type}.
Context {api : IdentityAPI B} {enforcer : RBACEnforcer}.
Context {base : ResourceBase Body}.

Definition collection_key : string := "groups".
Definition member_key : string := "group".

(** GET/HEAD /groups/{group_id} *)
Definition _get_group (group_id : string) : M B (response Body) :=
  ENFORCER.enforce_call "identity:get_group" None None;;
  group ← identity_api.get_group group_id;
  mret (Bare (wrap_member member_key group)).

(** GET/HEAD /groups *)
Definition _list_groups : M B (response Body) :=
  let filters := ["domain_id"; "name"] in
  ENFORCER.enforce_call "identity:list_groups" None (Some filters);;
  let hints := build_driver_hints filters in
  domain ← lift _get_domain_id_for_list_request;
  refs ← identity_api.list_groups domain hints;
  mret (Bare (wrap_collection (Some collection_key) refs hints None)).

Definition get (group_id : option string) : M B (response Body) :=
  match group_id with
  | Some group_id => _get_group group_id
  | None => _list_groups
  end.

(** POST /groups *)
Definition post (request_body_json : gmap string dict)
  : M B (response Body) :=
  ENFORCER.enforce_call "identity:create_group" None None;;
  let group := default ∅ (request_body_json !! "group") in
  lift (lazy_validate group_create group);;
  let group := _normalize_dict group in
  group ← lift (_normalize_domain_id group);
  ref ← identity_api.create_group group audit_initiator;
  mret (WithStatus (Some (wrap_member member_key ref)) CREATED).

(** PATCH /groups/{group_id} *)
Definition patch (request_body_json : gmap string dict) (group_id : string)
  : M B (response Body) :=
  ENFORCER.enforce_call "identity:update_group" None None;;
  let group := default ∅ (request_body_json !! "group") in
  lift (lazy_validate group_update group);;
  lift (_require_matching_id group_id group);;
  ref ← identity_api.update_group group_id group audit_initiator;
  mret (Bare (wrap_member member_key ref)).

(** DELETE /groups/{group_id} *)
Definition delete (group_id : string) : M B (response Body) :=
  ENFORCER.enforce_call "identity:delete_group" None None;;
  identity_api.delete_group group_id audit_initiator;;
  mret (WithStatus None NO_CONTENT).

End resource.
End GroupsResource.

Module GroupUsersResource.
Section resource.
Context {B Body : Type}.
Context {api : IdentityAPI B} {enforcer : RBACEnforcer}.
Context {base : ResourceBase Body}.

(** GET/HEAD /groups/{group_id}/users *)
Definition get (group_id : string) : M B (response Body) :=
  let filters := ["domain_id"; "enabled"; "name"; "password_expires_at"] in
  let target : target_dict := ∅ in
  target ← try_except
    (group ← identity_api.get_group group_id;
     mret (<["group" := group]> target))
    GroupNotFound
    (mret target);
  ENFORCER.enforce_call "identity:list_users_in_group"
                        (Some target) (Some filters);;
  let hints := build_driver_hints filters in
  refs ← identity_api.list_users_in_group group_id hints;
  mret (Bare (wrap_collection None refs hints (Some "users"))).

End resource.
End GroupUsersResource.

Module UserGroupCRUDResource.
Section resource.
Context {B Body : Type}.
Context {api : IdentityAPI B} {enforcer : RBACEnforcer}.
Context {base : ResourceBase Body}.

Definition _build_enforcement_target_attr (user_id group_id : string)
  : M B target_dict :=
  let target : target_dict := ∅ in
  target ← try_except
    (group ← identity_api.get_group group_id;
     mret (<["group" := group]> target))
    GroupNotFound
    (mret target);
  target ← try_except
    (user ← identity_api.get_user user_id;
     mret (<["user" := user]> target))
    UserNotFound
    (mret target);
  mret target.

(** GET/HEAD /groups/{group_id}/users/{user_id} *)
Definition get (group_id user_id : string) : M B (response Body) :=
  target_attr ← _build_enforcement_target_attr user_id group_id;
  ENFORCER.enforce_call "identity:check_user_in_group"
                        (Some target_attr) None;;
  identity_api.check_user_in_group user_id group_id;;
  mret (WithStatus None NO_CONTENT).

(** PUT /groups/{group_id}/users/{user_id} *)
Definition put (group_id user_id : string) : M B (response Body) :=
  target_attr ← _build_enforcement_target_attr user_id group_id;
  ENFORCER.enforce_call "identity:add_user_to_group"
                        (Some target_attr) None;;
  identity_api.add_user_to_group user_id group_id build_audit_initiator;;
  mret (WithStatus None NO_CONTENT).

(** DELETE /groups/{group_id}/users/{user_id} *)
Definition delete (group_id user_id : string) : M B (response Body) :=
  target_attr ← _build_enforcement_target_attr user_id group_id;
  ENFORCER.enforce_call "identity:remove_user_from_group"
                        (Some target_attr) None;;
  identity_api.remove_user_from_group user_id group_id
                                      build_audit_initiator;;
  mret (WithStatus None NO_CONTENT).

End resource.
End UserGroupCRUDResource.

(** ** Routing

    [GroupAPI] maps [/groups] and [/groups/{group_id}] to
    [GroupsResource], [/groups/{group_id}/users] to [GroupUsersResource]
    and [/groups/{group_id}/users/{user_id}] to [UserGroupCRUDResource];
    flask-restful then picks the method named after the verb. *)

Inductive request :=
| GetGroup (group_id : string)
| ListGroups
| CreateGroup (request_body_json : gmap string dict)
| UpdateGroup (group_id : string) (request_body_json : gmap string dict)
| DeleteGroup (group_id : string)
| ListUsersInGroup (group_id : string)
| CheckUserInGroup (group_id user_id : string)
| AddUserToGroup (group_id user_id : string)
| RemoveUserFromGroup (group_id user_id : string).

Module GroupAPI.
Section api.
Context {B Body : Type}.
Context {api : IdentityAPI B} {enforcer : RBACEnforcer}.
Context {base : ResourceBase Body}.

Definition dispatch (req : request) : M B (response Body) :=
  match req with
  | GetGroup group_id => GroupsResource.get (Some group_id)
  | ListGroups => GroupsResource.get None
  | CreateGroup body => GroupsResource.post body
  | UpdateGroup group_id body => GroupsResource.patch body group_id
  | DeleteGroup group_id => GroupsResource.delete group_id
  | ListUsersInGroup group_id => GroupUsersResource.get group_id
  | CheckUserInGroup group_id user_id =>
      UserGroupCRUDResource.get group_id user_id
  | AddUserToGroup group_id user_id =>
      UserGroupCRUDResource.put group_id user_id
  | RemoveUserFromGroup group_id user_id =>
      UserGroupCRUDResource.delete group_id user_id
  end.

End api.
End GroupAPI.

(** The action each request is enforced under. *)
Definition action_of (req : request) : string :=
  match req with
  | GetGroup _ => "identity:get_group"
  | ListGroups => "identity:list_groups"
  | CreateGroup _ => "identity:create_group"
  | UpdateGroup _ _ => "identity:update_group"
  | DeleteGroup _ => "identity:delete_group"
  | ListUsersInGroup _ => "identity:list_users_in_group"
  | CheckUserInGroup _ _ => "identity:check_user_in_group"
  | AddUserToGroup _ _ => "identity:add_user_to_group"
  | RemoveUserFromGroup _ _ => "identity:remove_user_from_group"
  end.

(** The lookups a request makes to build its enforcement target. *)
Definition target_lookups (req : request) : list event :=
  match req with
  | ListUsersInGroup group_id => [CallGetGroup group_id]
  | CheckUserInGroup group_id user_id
  | AddUserToGroup group_id user_id
  | RemoveUserFromGroup group_id user_id =>
      [CallGetGroup group_id; CallGetUser user_id]
  | _ => []
  end.

(** [is_primary req ev]: [ev] is the call of the backend operation that
    [req] asks for, made with the identifiers of the path. *)
Definition is_primary (req : request) (ev : event) : bool :=
  match req, ev with
  | GetGroup group_id, CallGetGroup g => bool_decide (g = group_id)
  | ListGroups, CallListGroups _ _ => true
  | CreateGroup _, CallCreateGroup _ => true
  | UpdateGroup group_id _, CallUpdateGroup g _ => bool_decide (g = group_id)
  | DeleteGroup group_id, CallDeleteGroup g => bool_decide (g = group_id)
  | ListUsersInGroup group_id, CallListUsersInGroup g _ =>
      bool_decide (g = group_id)
  | CheckUserInGroup group_id user_id, CallCheckUserInGroup u g
  | AddUserToGroup group_id user_id, CallAddUserToGroup u g
  | RemoveUserFromGroup group_id user_id, CallRemoveUserFromGroup u g =>
      bool_decide (u = user_id ∧ g = group_id)
  | _, _ => false
  end.

(** ** An identity backend in memory *)

Record store := Store {
  groups : gmap string dict;
  users : gmap string dict;
  memberships : gset (string * string);
  uuids : list string
}.

Module memory.

(** Modelled from the spec: the identity backend is not in this file.
    Every lookup by id fails with the NotFound kind of the entity when
    it does not exist. *)
Definition get_group (group_id : string) (s : store) : result dict :=
  match groups s !! group_id with
  | Some group => Ok group
  | None => Raise GroupNotFound
  end.

(** Modelled from the spec: the identity backend is not in this file.
    The user lookup fails with [UserNotFound] for an absent user. *)
Definition get_user (user_id : string) (s : store) : result dict :=
  match users s !! user_id with
  | Some user => Ok user
  | None => Raise UserNotFound
  end.

(** Modelled from the spec: the identity backend is not in this file.
    Groups are listed within the domain scope when there is one; the
    hints are not interpreted. *)
Definition list_groups (domain_scope : option string) (hints : driver_hints)
    (s : store) : result (list dict) :=
  let all := (map_to_list (groups s)).*2 in
  Ok match domain_scope with
     | Some d => filter (λ g : dict, g !! "domain_id" = Some (VStr d)) all
     | None => all
     end.

(** Modelled from the spec: the identity backend is not in this file.
    The users of an absent group cannot be listed. *)
Definition list_users_in_group (group_id : string) (hints : driver_hints)
    (s : store) : result (list dict) :=
  match groups s !! group_id with
  | None => Raise GroupNotFound
  | Some _ =>
      Ok (filter (λ p : string * dict, (p.1, group_id) ∈ memberships s)
                 (map_to_list (users s))).*2
  end.

(** Modelled from the spec: the identity backend is not in this file.
    The check fails with a NotFound kind when the group, the user or
    the membership is absent. *)
Definition check_user_in_group (user_id group_id : string) (s : store)
  : result unit :=
  match groups s !! group_id, users s !! user_id with
  | None, _ => Raise GroupNotFound
  | Some _, None => Raise UserNotFound
  | Some _, Some _ =>
      if decide ((user_id, group_id) ∈ memberships s) then Ok tt
      else Raise NotFound
  end.

(** Modelled from the spec: the identity backend is not in this file.
    A created group gets the next fresh identifier. *)
Definition create_group (group : dict) (init : initiator) (s : store)
  : result dict * store :=
  match uuids s with
  | [] => (Raise (OtherError "uuid"), s)
  | group_id :: rest =>
      let ref := <["id" := VStr group_id]> group in
      (Ok ref,
       Store (<[group_id := ref]> (groups s)) (users s) (memberships s) rest)
  end.

(** Modelled from the spec: the identity backend is not in this file.
    An update overrides the attributes the body gives. *)
Definition update_group (group_id : string) (group : dict)
    (init : initiator) (s : store) : result dict * store :=
  match groups s !! group_id with
  | None => (Raise GroupNotFound, s)
  | Some old =>
      let ref := group ∪ old in
      (Ok ref,
       Store (<[group_id := ref]> (groups s)) (users s) (memberships s)
             (uuids s))
  end.

(** Modelled from the spec: the identity backend is not in this file.
    Deleting removes the group and its memberships; an absent group is
    NotFound. *)
Definition delete_group (group_id : string) (init : initiator) (s : store)
  : result unit * store :=
  match groups s !! group_id with
  | None => (Raise GroupNotFound, s)
  | Some _ =>
      (Ok tt,
       Store (delete group_id (groups s)) (users s)
             (filter (λ p, p.2 ≠ group_id) (memberships s)) (uuids s))
  end.

(** Modelled from the spec: the identity backend is not in this file.
    Adding a membership needs both the group and the user. *)
Definition add_user_to_group (user_id group_id : string) (init : initiator)
    (s : store) : result unit * store :=
  match groups s !! group_id, users s !! user_id with
  | None, _ => (Raise GroupNotFound, s)
  | Some _, None => (Raise UserNotFound, s)
  | Some _, Some _ =>
      (Ok tt,
       Store (groups s) (users s)
             ({[ (user_id, group_id) ]} ∪ memberships s) (uuids s))
  end.

(** Modelled from the spec: the identity backend is not in this file.
    Removing needs the group, the user and the membership. *)
Definition remove_user_from_group (user_id group_id : string)
    (init : initiator) (s : store) : result unit * store :=
  match groups s !! group_id, users s !! user_id with
  | None, _ => (Raise GroupNotFound, s)
  | Some _, None => (Raise UserNotFound, s)
  | Some _, Some _ =>
      if decide ((user_id, group_id) ∈ memberships s)
      then (Ok tt,
            Store (groups s) (users s)
                  (memberships s ∖ {[ (user_id, group_id) ]}) (uuids s))
      else (Raise NotFound, s)
  end.

#[export] Instance api : IdentityAPI store := {|
  backend_get_group := get_group;
  backend_get_user := get_user;
  backend_list_groups := list_groups;
  backend_list_users_in_group := list_users_in_group;
  backend_check_user_in_group := check_user_in_group;
  backend_create_group := create_group;
  backend_update_group := update_group;
  backend_delete_group := delete_group;
  backend_add_user_to_group := add_user_to_group;
  backend_remove_user_from_group := remove_user_from_group
|}.

End memory.

(** ** Policy enforcers *)

(** Modelled from the spec: the policy enforcer is not in this file.
    Given an action and a target it allows or raises [Forbidden]; this
    one allows the actions of a list, whatever the target. *)
Definition action_policy (permitted : list string) : RBACEnforcer := {|
  enforcer_decision args :=
    if decide (action args ∈ permitted) then Ok tt else Raise Forbidden
|}.

(** Modelled from the spec: the policy enforcer is not in this file.
    This one decides on the target: it allows a call whose target holds
    a group of the caller's domain. *)
Definition domain_policy (domain_id : string) : RBACEnforcer := {|
  enforcer_decision args :=
    match target_attr args with
    | Some target =>
        match (target : target_dict) !! "group" with
        | Some group =>
            if decide ((group : dict) !! "domain_id" = Some (VStr domain_id))
            then Ok tt else Raise Forbidden
        | None => Raise Forbidden
        end
    | None => Raise Forbidden
    end
|}.

(** ** A plain resource base *)

Inductive json_body :=
| Member (member_key : string) (ref : dict)
| Collection (collection_name : string) (refs : list dict).

(** Modelled from the spec: the schema validator is not in this file.
    It validates the shape of the group payload: a name, when given, is
    a string, and creation needs one. *)
Definition validate_group (sch : schema) (group : dict) : result unit :=
  match group !! "name", sch with
  | Some (VStr _), _ => Ok tt
  | None, group_update => Ok tt
  | _, _ => Raise ValidationError
  end.

(** Modelled from the spec: the helpers of [ks_flask] are not in this
    file.  Members and collections are wrapped under their key, the
    hints keep the recognised filters of the query string, and the
    normalisations leave the body as it is. *)
Definition plain_base (query : list (string * string)) (caller : string)
  : ResourceBase json_body := {|
  wrap_member := Member;
  wrap_collection cls_key refs hints collection_name :=
    Collection (default (default "" cls_key) collection_name) refs;
  build_driver_hints filters :=
    filter (λ kv : string * string, kv.1 ∈ filters) query;
  _get_domain_id_for_list_request := Ok None;
  _normalize_dict group := group;
  _normalize_domain_id group := Ok group;
  lazy_validate := validate_group;
  audit_initiator := Initiator caller;
  build_audit_initiator := Initiator caller
|}.

(** ** Sample data *)

Definition admin_base : ResourceBase json_body := plain_base [] "admin".

Definition g1 : dict :=
  {[ "id" := VStr "g1"; "name" := VStr "ops"; "domain_id" := VStr "d1" ]}.

Definition u1 : dict :=
  {[ "id" := VStr "u1"; "name" := VStr "alice"; "domain_id" := VStr "d1" ]}.

Definition empty_store : store := Store ∅ ∅ ∅ ["g2"; "g3"].

Definition store_g1 : store := Store {[ "g1" := g1 ]} ∅ ∅ ["g2"; "g3"].

Definition store_g1_u1 : store :=
  Store {[ "g1" := g1 ]} {[ "u1" := u1 ]} ∅ ["g2"; "g3"].

Definition store_member : store :=
  Store {[ "g1" := g1 ]} {[ "u1" := u1 ]} {[ ("u1", "g1") ]} ["g2"; "g3"].

(** A backend whose group lookup fails for a reason other than the
    absence of the group. *)
Definition unavailable : IdentityAPI store := {|
  backend_get_group _ _ := Raise (OtherError "Unavailable");
  backend_get_user := memory.get_user;
  backend_list_groups := memory.list_groups;
  backend_list_users_in_group := memory.list_users_in_group;
  backend_check_user_in_group := memory.check_user_in_group;
  backend_create_group := memory.create_group;
  backend_update_group := memory.update_group;
  backend_delete_group := memory.delete_group;
  backend_add_user_to_group := memory.add_user_to_group;
  backend_remove_user_from_group := memory.remove_user_from_group
|}.

(** ** Notions used in the statements *)

(** A lookup resolves or misses: its only failure is the NotFound kind
    of the entity. *)
Definition resolves_or_misses {A} (r : result A) (missing : exn) : Prop :=
  ∀ e, r = Raise e → e = missing.

(** The filters of the users listing. *)
Definition user_filters : list string :=
  ["domain_id"; "enabled"; "name"; "password_expires_at"].

(** Calls of backend operations, as opposed to calls of the enforcer and
    the lookups that feed it. *)
Definition is_operation (ev : event) : bool :=
  match ev with
  | CallEnforce _ | CallGetGroup _ | CallGetUser _ => false
  | _ => true
  end.

Section notions.
Context {B Body : Type}.
Context {api : IdentityAPI B} {enforcer : RBACEnforcer}.
Context {base : ResourceBase Body}.

(** The caller is denied [req] on backend [b]: the enforcer raises
    [Forbidden] for the target built from [b]. *)
Definition denied (req : request) (user_id group_id : string) (b : B)
  : Prop :=
  ∀ target,
    fst (run (UserGroupCRUDResource._build_enforcement_target_attr
                user_id group_id) b) = Ok target →
    enforcer_decision (EnforceArgs (action_of req) (Some target) None)
    = Raise Forbidden.

(** The call a membership request makes for its operation, with the
    identifiers of the path. *)
Definition path_call (req : request) : option event :=
  match req with
  | ListUsersInGroup group_id =>
      Some (CallListUsersInGroup group_id (build_driver_hints user_filters))
  | CheckUserInGroup group_id user_id =>
      Some (CallCheckUserInGroup user_id group_id)
  | AddUserToGroup group_id user_id =>
      Some (CallAddUserToGroup user_id group_id)
  | RemoveUserFromGroup group_id user_id =>
      Some (CallRemoveUserFromGroup user_id group_id)
  | _ => None
  end.

End notions.

(** The requests [GroupsResource] serves; the others are the membership
    requests of [GroupUsersResource] and [UserGroupCRUDResource]. *)
Definition is_groups_request (req : request) : bool :=
  match req with
  | GetGroup _ | ListGroups | CreateGroup _ | UpdateGroup _ _
  | DeleteGroup _ => true
  | _ => false
  end.

(** The filters a request declares to the enforcer. *)
Definition filters_of (req : request) : option (list string) :=
  match req with
  | ListGroups => Some ["domain_id"; "name"]
  | ListUsersInGroup _ => Some user_filters
  | _ => None
  end.

(** Calls of the backend operations that may change the backend. *)
Definition is_mutation (ev : event) : bool :=
  match ev with
  | CallCreateGroup _ | CallUpdateGroup _ _ | CallDeleteGroup _
  | CallAddUserToGroup _ _ | CallRemoveUserFromGroup _ _ => true
  | _ => false
  end.

Definition exn_of {A} (r : result A) : option exn :=
  match r with Ok _ => None | Raise e => Some e end.

Section outcomes.
Context {B Body : Type}.
Context {api : IdentityAPI B} {enforcer : RBACEnforcer}.
Context {base : ResourceBase Body}.

(** What a call raises, if anything, when it is made on backend [b].
    [GroupsResource] passes [audit_initiator] to the operations it
    calls, [UserGroupCRUDResource] passes [build_audit_initiator]. *)
Definition raised_by (ev : event) (b : B) : option exn :=
  match ev with
  | CallEnforce args => exn_of (enforcer_decision args)
  | CallGetGroup group_id => exn_of (backend_get_group group_id b)
  | CallGetUser user_id => exn_of (backend_get_user user_id b)
  | CallListGroups domain hints =>
      exn_of (backend_list_groups domain hints b)
  | CallCreateGroup group =>
      exn_of (fst (backend_create_group group audit_initiator b))
  | CallUpdateGroup group_id group =>
      exn_of (fst (backend_update_group group_id group audit_initiator b))
  | CallDeleteGroup group_id =>
      exn_of (fst (backend_delete_group group_id audit_initiator b))
  | CallListUsersInGroup group_id hints =>
      exn_of (backend_list_users_in_group group_id hints b)
  | CallCheckUserInGroup user_id group_id =>
      exn_of (backend_check_user_in_group user_id group_id b)
  | CallAddUserToGroup user_id group_id =>
      exn_of (fst (backend_add_user_to_group
                     user_id group_id build_audit_initiator b))
  | CallRemoveUserFromGroup user_id group_id =>
      exn_of (fst (backend_remove_user_from_group
                     user_id group_id build_audit_initiator b))
  end.

(** The backend operation of a check, add or remove request, with the
    identifiers of the path. *)
Definition membership_operation (req : request) (b : B) : result unit * B :=
  match req with
  | CheckUserInGroup group_id user_id =>
      (backend_check_user_in_group user_id group_id b, b)
  | AddUserToGroup group_id user_id =>
      backend_add_user_to_group user_id group_id build_audit_initiator b
  | RemoveUserFromGroup group_id user_id =>
      backend_remove_user_from_group user_id group_id build_audit_initiator b
  | _ => (Ok tt, b)
  end.

(** The lookups of the target of a request resolve or miss on [b]. *)
Definition lookups_resolve_or_miss (req : request) (b : B) : Prop :=
  match req with
  | ListUsersInGroup group_id =>
      resolves_or_misses (backend_get_group group_id b) GroupNotFound
  | CheckUserInGroup group_id user_id
  | AddUserToGroup group_id user_id
  | RemoveUserFromGroup group_id user_id =>
      resolves_or_misses (backend_get_group group_id b) GroupNotFound ∧
      resolves_or_misses (backend_get_user user_id b) UserNotFound
  | _ => True
  end.

(** The steps a handler takes between the enforcer and its operation
    (the domain of a list request, validation, normalisation, the id
    check) all pass. *)
Definition helpers_pass (req : request) : Prop :=
  match req with
  | ListGroups => is_Ok _get_domain_id_for_list_request
  | CreateGroup body =>
      let group := default ∅ (body !! "group") in
      is_Ok (lazy_validate group_create group) ∧
      is_Ok (_normalize_domain_id (_normalize_dict group))
  | UpdateGroup group_id body =>
      let group := default ∅ (body !! "group") in
      is_Ok (lazy_validate group_update group) ∧
      is_Ok (_require_matching_id group_id group)
  | _ => True
  end.

End outcomes.

(** ** Proof support *)

Ltac unfold_handlers :=
  unfold run, GroupAPI.dispatch,
    GroupsResource.get, GroupsResource._get_group,
    GroupsResource._list_groups, GroupsResource.post,
    GroupsResource.patch, GroupsResource.delete,
    GroupUsersResource.get,
    UserGroupCRUDResource.get, UserGroupCRUDResource.put,
    UserGroupCRUDResource.delete,
    UserGroupCRUDResource._build_enforcement_target_attr,
    identity_api.get_group, identity_api.get_user,
    identity_api.list_groups, identity_api.list_users_in_group,
    identity_api.check_user_in_group, identity_api.create_group,
    identity_api.update_group, identity_api.delete_group,
    identity_api.add_user_to_group, identity_api.remove_user_from_group,
    ENFORCER.enforce_call, try_except, query, command, lift, log,
    mbind, M_bind, bind, mret, M_ret, ret in *;
  simpl in *.

Ltac lookup_misses :=
  repeat match goal with
         | H : resolves_or_misses (Raise ?e) _ |- _ =>
             specialize (H e eq_refl); subst
         | H : resolves_or_misses ?r _, H' : ?r = Raise ?e |- _ =>
             specialize (H e H'); subst
         | H : _ ∧ _ |- _ => destruct H
         end.

Ltac resolve_raised :=
  repeat match goal with
         | H : exn_of (fst ?x) = _, H' : ?x = _ |- _ =>
             rewrite H' in H; simpl in H; simplify_eq
         | H : exn_of ?x = _, H' : ?x = _ |- _ =>
             rewrite H' in H; simpl in H; simplify_eq
         end.

Ltac rewrite_calls :=
  repeat match goal with
         | H : _ = Ok _ |- _ => rewrite H
         | H : _ = Raise _ |- _ => rewrite H
         | H : _ = (_, _) |- _ => rewrite H
         end; simpl.

Lemma ok_resolves {A} (r : result A) (missing : exn) :
  is_Ok r → resolves_or_misses r missing.
Proof. destruct r; [intros _ e He; discriminate He | intros []]. Qed.

Lemma raise_resolves {A} (r : result A) (missing : exn) :
  r = Raise missing → resolves_or_misses r missing.
Proof. intros -> e He. by injection He as <-. Qed.

Lemma ok_is_not_raise {A} (r : result A) (e : exn) :
  is_Ok r → r ≠ Raise e.
Proof. by intros Hok ->. Qed.

Section properties.
Context {B Body : Type}.
Context {api : IdentityAPI B} {enforcer : RBACEnforcer}.
Context {base : ResourceBase Body}.

(** C1.  When each lookup either succeeds or fails with the NotFound
    kind of its entity, the target builder does not raise: it returns a
    mapping that holds key "group" exactly when the group lookup
    succeeded and key "user" exactly when the user lookup succeeded, and
    that is empty when both entities are absent. *)
Theorem build_target_absorbs_not_found (user_id group_id : string) (b : B) :
  resolves_or_misses (backend_get_group group_id b) GroupNotFound →
  resolves_or_misses (backend_get_user user_id b) UserNotFound →
  ∃ target : target_dict,
    run (UserGroupCRUDResource._build_enforcement_target_attr
           user_id group_id) b
    = (Ok target, World b [CallGetGroup group_id; CallGetUser user_id]) ∧
    (is_Some (target !! "group") ↔ is_Ok (backend_get_group group_id b)) ∧
    (is_Some (target !! "user") ↔ is_Ok (backend_get_user user_id b)) ∧
    (backend_get_group group_id b = Raise GroupNotFound →
     backend_get_user user_id b = Raise UserNotFound →
     target = ∅).
Proof.
  intros Hg Hu. unfold_handlers.
  destruct (backend_get_group group_id b) as [g|eg] eqn:Eg; simpl.
  - destruct (backend_get_user user_id b) as [u|eu] eqn:Eu; simpl.
    + eexists; split; [reflexivity|].
      rewrite lookup_insert_ne, !lookup_insert_eq by done.
      naive_solver.
    + rewrite (Hu eu eq_refl); simpl.
      eexists; split; [reflexivity|].
      rewrite lookup_insert_eq, lookup_insert_ne, lookup_empty by done.
      split_and!; try done; unfold is_Some; naive_solver.
  - rewrite (Hg eg eq_refl); simpl.
    destruct (backend_get_user user_id b) as [u|eu] eqn:Eu; simpl.
    + eexists; split; [reflexivity|].
      rewrite lookup_insert_ne, lookup_insert_eq, lookup_empty by done.
      split_and!; try done; unfold is_Some; naive_solver.
    + rewrite (Hu eu eq_refl); simpl.
      eexists; split; [reflexivity|].
      rewrite !lookup_empty.
      split_and!; try done; unfold is_Some; naive_solver.
Qed.

(** C9.  Whatever the backend answers, the mapping the target builder
    returns has no key besides "group" and "user", and the value under a
    key is the record its lookup returned; the builder leaves the backend
    as it was and makes no call besides the two lookups.  When it raises
    instead, the exception is one a lookup raised and the builder does
    not absorb. *)
Theorem build_target_contents (user_id group_id : string) (b : B) :
  let '(r, w') :=
    run (UserGroupCRUDResource._build_enforcement_target_attr
           user_id group_id) b in
  backend w' = b ∧
  (∀ ev, ev ∈ trace w' →
         ev = CallGetGroup group_id ∨ ev = CallGetUser user_id) ∧
  match r with
  | Ok target =>
      (∀ key, is_Some ((target : target_dict) !! key) →
              key = "group" ∨ key = "user") ∧
      (∀ group, target !! "group" = Some group ↔
                backend_get_group group_id b = Ok group) ∧
      (∀ user, target !! "user" = Some user ↔
               backend_get_user user_id b = Ok user)
  | Raise e =>
      (backend_get_group group_id b = Raise e ∧ e ≠ GroupNotFound) ∨
      (backend_get_user user_id b = Raise e ∧ e ≠ UserNotFound)
  end.
Proof.
  unfold_handlers.
  assert (Hkeys : ∀ (t : target_dict) key,
             (∀ k, is_Some (t !! k) → k = "group" ∨ k = "user") →
             ∀ k v, is_Some (<[key := v]> t !! k) →
                    key = "group" ∨ key = "user" → k = "group" ∨ k = "user").
  { intros t key Ht k v Hk Hkey.
    destruct (decide (key = k)) as [<-|Hne]; [done|].
    rewrite lookup_insert_ne in Hk by done. by apply Ht. }
  assert (Hempty : ∀ k, is_Some ((∅ : target_dict) !! k) →
                        k = "group" ∨ k = "user").
  { intros k. rewrite lookup_empty. by intros [? ?]. }
  assert (Hev : ∀ ev, ev ∈ [CallGetGroup group_id; CallGetUser user_id] →
                 ev = CallGetGroup group_id ∨ ev = CallGetUser user_id).
  { intros ev. rewrite !elem_of_cons, elem_of_nil. tauto. }
  assert (Hev1 : ∀ ev, ev ∈ [CallGetGroup group_id] →
                 ev = CallGetGroup group_id ∨ ev = CallGetUser user_id).
  { intros ev. rewrite !elem_of_cons, elem_of_nil. tauto. }
  destruct (backend_get_group group_id b) as [g|eg] eqn:Eg; simpl.
  - destruct (backend_get_user user_id b) as [u|eu] eqn:Eu; simpl.
    + split_and!; eauto.
      * intros group. rewrite lookup_insert_ne, lookup_insert_eq by done.
        naive_solver.
      * intros user. rewrite lookup_insert_eq. naive_solver.
    + destruct (decide (eu = UserNotFound)) as [->|Hne]; simpl.
      * split_and!; eauto.
        -- intros group. rewrite lookup_insert_eq. naive_solver.
        -- intros user. rewrite lookup_insert_ne, lookup_empty by done.
           naive_solver.
      * split_and!; eauto.
  - destruct (decide (eg = GroupNotFound)) as [->|Hne]; simpl.
    + destruct (backend_get_user user_id b) as [u|eu] eqn:Eu; simpl.
      * split_and!; eauto.
        -- intros group. rewrite lookup_insert_ne, lookup_empty by done.
           naive_solver.
        -- intros user. rewrite lookup_insert_eq. naive_solver.
      * destruct (decide (eu = UserNotFound)) as [->|Hne]; simpl.
        -- split_and!; eauto; intros ?; rewrite lookup_empty; naive_solver.
        -- split_and!; eauto.
    + split_and!; eauto.
Qed.

(** C8.  The masking is by exception class.  A group lookup that raises
    anything but [GroupNotFound], or a user lookup that raises anything
    but [UserNotFound], makes the target builder raise that exception;
    every membership handler (and the users listing, for its group
    lookup) then raises it too and the enforcer is never called. *)
Theorem target_masking_is_type_specific
    (user_id group_id : string) (b : B) (e : exn) :
  (backend_get_group group_id b = Raise e ∧ e ≠ GroupNotFound) ∨
  (resolves_or_misses (backend_get_group group_id b) GroupNotFound ∧
   backend_get_user user_id b = Raise e ∧ e ≠ UserNotFound) →
  fst (run (UserGroupCRUDResource._build_enforcement_target_attr
              user_id group_id) b) = Raise e ∧
  (∀ req, req ∈ [CheckUserInGroup group_id user_id;
                 AddUserToGroup group_id user_id;
                 RemoveUserFromGroup group_id user_id] →
     let '(r, w') := run (GroupAPI.dispatch req) b in
     r = Raise e ∧ backend w' = b ∧
     ∀ ev, ev ∈ trace w' → is_enforce ev = false) ∧
  (backend_get_group group_id b = Raise e → e ≠ GroupNotFound →
     let '(r, w') := run (GroupUsersResource.get group_id) b in
     r = Raise e ∧ backend w' = b ∧
     ∀ ev, ev ∈ trace w' → is_enforce ev = false).
Proof.
  assert (Hev : ∀ l, Forall (λ ev, is_enforce ev = false) l →
                     ∀ ev, ev ∈ l → is_enforce ev = false).
  { intros l Hl ev Hin. by eapply (proj1 (Forall_forall _ l) Hl). }
  intros Hfault. split_and!.
  - unfold_handlers.
    destruct Hfault as [[Hg Hne]|(Hg & Hu & Hne)].
    + rewrite Hg; simpl. by rewrite decide_False.
    + destruct (backend_get_group group_id b) as [g|eg]; simpl.
      * rewrite Hu; simpl. by rewrite decide_False.
      * rewrite (Hg eg eq_refl); simpl. rewrite Hu; simpl.
        by rewrite decide_False.
  - intros req Hreq. rewrite !elem_of_cons, elem_of_nil in Hreq.
    destruct Hreq as [->|[->|[->|[]]]]; unfold_handlers;
      (destruct Hfault as [[Hg Hne]|(Hg & Hu & Hne)];
       [ rewrite Hg; simpl; rewrite decide_False by done; simpl;
         split_and!; try done; apply Hev; repeat constructor
       | destruct (backend_get_group group_id b) as [g|eg]; simpl;
         [| rewrite (Hg eg eq_refl); simpl ];
         rewrite Hu; simpl; rewrite decide_False by done; simpl;
         split_and!; try done; apply Hev; repeat constructor ]).
  - intros Hg Hne. unfold_handlers. rewrite Hg; simpl.
    rewrite decide_False by done; simpl.
    split_and!; try done; apply Hev; repeat constructor.
Qed.

(** With lookups that resolve or miss, the builder returns after both
    lookups. *)
Lemma build_target_returns (user_id group_id : string) (b : B) :
  resolves_or_misses (backend_get_group group_id b) GroupNotFound →
  resolves_or_misses (backend_get_user user_id b) UserNotFound →
  ∃ target : target_dict,
    run (UserGroupCRUDResource._build_enforcement_target_attr
           user_id group_id) b
    = (Ok target, World b [CallGetGroup group_id; CallGetUser user_id]).
Proof.
  intros Hg Hu. unfold_handlers.
  destruct (backend_get_group group_id b) as [g|eg]; simpl;
    [| rewrite (Hg eg eq_refl); simpl ];
    (destruct (backend_get_user user_id b) as [u|eu]; simpl;
     [| rewrite (Hu eu eq_refl); simpl ]); eauto.
Qed.

Lemma denied_membership_run (req : request) (user_id group_id : string)
    (b : B) :
  req ∈ [CheckUserInGroup group_id user_id;
         AddUserToGroup group_id user_id;
         RemoveUserFromGroup group_id user_id] →
  resolves_or_misses (backend_get_group group_id b) GroupNotFound →
  resolves_or_misses (backend_get_user user_id b) UserNotFound →
  denied req user_id group_id b →
  ∃ args,
    run (GroupAPI.dispatch req) b
    = (Raise Forbidden,
       World b [CallGetGroup group_id; CallGetUser user_id;
                CallEnforce args]).
Proof.
  intros Hreq Hg Hu Hd.
  destruct (build_target_returns user_id group_id b Hg Hu) as (t & Hrun).
  specialize (Hd t). rewrite Hrun in Hd. specialize (Hd eq_refl).
  unfold run in Hrun.
  rewrite !elem_of_cons, elem_of_nil in Hreq.
  destruct Hreq as [->|[->|[->|[]]]];
    unfold run, GroupAPI.dispatch, UserGroupCRUDResource.get,
      UserGroupCRUDResource.put, UserGroupCRUDResource.delete,
      mbind, M_bind, bind;
    rewrite Hrun; unfold ENFORCER.enforce_call, log; simpl in *;
    rewrite Hd; eauto.
Qed.

(** C2.  Take a membership operation (check, add or remove) and two
    backends that differ in whether the group and the user exist, each
    lookup either resolving or missing.  When the enforcer denies the
    caller on both, both runs end in the same [Forbidden], leave their
    backend as it was and never reach the operation itself. *)
Theorem denied_caller_sees_forbidden
    (req : request) (user_id group_id : string) (b1 b2 : B) :
  req ∈ [CheckUserInGroup group_id user_id;
         AddUserToGroup group_id user_id;
         RemoveUserFromGroup group_id user_id] →
  resolves_or_misses (backend_get_group group_id b1) GroupNotFound →
  resolves_or_misses (backend_get_user user_id b1) UserNotFound →
  resolves_or_misses (backend_get_group group_id b2) GroupNotFound →
  resolves_or_misses (backend_get_user user_id b2) UserNotFound →
  denied req user_id group_id b1 →
  denied req user_id group_id b2 →
  let '(r1, w1) := run (GroupAPI.dispatch req) b1 in
  let '(r2, w2) := run (GroupAPI.dispatch req) b2 in
  r1 = Raise Forbidden ∧ r2 = r1 ∧
  backend w1 = b1 ∧ backend w2 = b2 ∧
  (∀ ev, ev ∈ trace w1 ∨ ev ∈ trace w2 → is_primary req ev = false).
Proof.
  intros Hreq Hg1 Hu1 Hg2 Hu2 Hd1 Hd2.
  destruct (denied_membership_run req user_id group_id b1 Hreq Hg1 Hu1 Hd1)
    as [args1 ->].
  destruct (denied_membership_run req user_id group_id b2 Hreq Hg2 Hu2 Hd2)
    as [args2 ->].
  split_and!; try done.
  rewrite !elem_of_cons, elem_of_nil in Hreq.
  intros ev [Hev|Hev]; simpl in Hev;
    rewrite !elem_of_cons, elem_of_nil in Hev;
    destruct Hev as [->|[->|[->|[]]]];
    destruct Hreq as [->|[->|[->|[]]]]; reflexivity.
Qed.

(** C6.  PUT /groups/g1/users/u1 where the group exists and the user
    does not: the target builder returns the mapping with the group
    alone; when the policy permits, [add_user_to_group] is called and
    the [UserNotFound] it raises is what the handler raises. *)
Theorem add_missing_user_propagates
    (group_id user_id : string) (b b' : B) (group : dict) :
  backend_get_group group_id b = Ok group →
  backend_get_user user_id b = Raise UserNotFound →
  enforcer_decision
    (EnforceArgs "identity:add_user_to_group"
                 (Some {[ "group" := group ]}) None) = Ok tt →
  backend_add_user_to_group user_id group_id build_audit_initiator b
  = (Raise UserNotFound, b') →
  run (UserGroupCRUDResource._build_enforcement_target_attr
         user_id group_id) b
  = (Ok {[ "group" := group ]},
     World b [CallGetGroup group_id; CallGetUser user_id]) ∧
  run (UserGroupCRUDResource.put group_id user_id) b
  = (Raise UserNotFound,
     World b' [CallGetGroup group_id; CallGetUser user_id;
               CallEnforce (EnforceArgs "identity:add_user_to_group"
                                        (Some {[ "group" := group ]}) None);
               CallAddUserToGroup user_id group_id]).
Proof.
  intros Hg Hu Hpermit Hadd. unfold_handlers.
  rewrite Hg; simpl. rewrite Hu; simpl.
  rewrite insert_empty. split; [reflexivity|].
  rewrite Hpermit, Hadd. reflexivity.
Qed.

(** C7.  GET /groups/{group_id}/users builds a target that holds the
    group under "group" when the lookup resolves and is empty when it
    misses, calls the enforcer for "identity:list_users_in_group" with
    that target, and only then calls [list_users_in_group] with the
    group id of the path; the users it returns are wrapped as the
    collection named "users". *)
Theorem list_users_in_group_flow (group_id : string) (b : B) :
  resolves_or_misses (backend_get_group group_id b) GroupNotFound →
  let target : target_dict :=
    match backend_get_group group_id b with
    | Ok group => {[ "group" := group ]}
    | Raise _ => ∅
    end in
  let args := EnforceArgs "identity:list_users_in_group"
                          (Some target) (Some user_filters) in
  let hints := build_driver_hints user_filters in
  run (GroupUsersResource.get group_id) b
  = match enforcer_decision args with
    | Raise e => (Raise e, World b [CallGetGroup group_id; CallEnforce args])
    | Ok _ =>
        (match backend_list_users_in_group group_id hints b with
         | Ok refs => Ok (Bare (wrap_collection None refs hints (Some "users")))
         | Raise e => Raise e
         end,
         World b [CallGetGroup group_id; CallEnforce args;
                  CallListUsersInGroup group_id hints])
    end.
Proof.
  intros Hg. unfold_handlers. unfold user_filters.
  destruct (backend_get_group group_id b) as [g|eg]; simpl.
  - rewrite insert_empty.
    destruct (enforcer_decision _); simpl; [|reflexivity].
    by destruct (backend_list_users_in_group _ _ _).
  - rewrite (Hg eg eq_refl); simpl.
    destruct (enforcer_decision _); simpl; [|reflexivity].
    by destruct (backend_list_users_in_group _ _ _).
Qed.

(** C5.  DELETE /groups/{group_id} by a caller the enforcer permits, on
    a backend whose [delete_group] succeeds for a group that exists and
    raises [GroupNotFound] for one that does not: the handler returns no
    body with status 204 when the group exists, and raises the
    [GroupNotFound] of the backend when it does not.  Whatever
    [delete_group] raises is what the handler raises. *)
Theorem delete_group_outcome (group_id : string) (b : B) :
  enforcer_decision (EnforceArgs "identity:delete_group" None None)
  = Ok tt →
  (is_Ok (backend_get_group group_id b) →
   is_Ok (fst (backend_delete_group group_id audit_initiator b))) →
  (backend_get_group group_id b = Raise GroupNotFound →
   fst (backend_delete_group group_id audit_initiator b)
   = Raise GroupNotFound) →
  let '(r, w') := run (GroupsResource.delete group_id) b in
  trace w' = [CallEnforce (EnforceArgs "identity:delete_group" None None);
              CallDeleteGroup group_id] ∧
  backend w' = snd (backend_delete_group group_id audit_initiator b) ∧
  (is_Ok (backend_get_group group_id b) →
   r = Ok (WithStatus None NO_CONTENT)) ∧
  (backend_get_group group_id b = Raise GroupNotFound →
   r = Raise GroupNotFound) ∧
  (∀ e, fst (backend_delete_group group_id audit_initiator b) = Raise e →
        r = Raise e).
Proof.
  intros Hpermit Hexists Hmissing. unfold_handlers. rewrite Hpermit.
  destruct (backend_delete_group group_id audit_initiator b) as [[[]|e] b'];
    simpl in *; split_and!; try done; try congruence; intros Hg;
    first [ specialize (Hmissing Hg); congruence
          | by specialize (Hexists Hg) ].
Qed.

(** C4, as amended.  PATCH /groups/{group_id} by a caller the enforcer
    permits, with a body the schema validator accepts: when the body
    carries an id that differs from the group id of the path the handler
    raises [ValidationError] and [update_group] is not called; when the
    id is absent or equal, [update_group] is called with the path id and
    the body, and its outcome is the outcome of the handler. *)
Theorem patch_checks_body_id
    (request_body_json : gmap string dict) (group_id : string) (b : B) :
  let group := default ∅ (request_body_json !! "group") in
  let enforce := CallEnforce (EnforceArgs "identity:update_group" None None) in
  enforcer_decision (EnforceArgs "identity:update_group" None None)
  = Ok tt →
  lazy_validate group_update group = Ok tt →
  (∀ v, group !! "id" = Some v → v ≠ VStr group_id →
        run (GroupsResource.patch request_body_json group_id) b
        = (Raise ValidationError, World b [enforce])) ∧
  (group !! "id" = None ∨ group !! "id" = Some (VStr group_id) →
   run (GroupsResource.patch request_body_json group_id) b
   = let '(r, b') := backend_update_group group_id group audit_initiator b in
     (match r with
      | Ok ref => Ok (Bare (wrap_member "group" ref))
      | Raise e => Raise e
      end,
      World b' [enforce; CallUpdateGroup group_id group])).
Proof.
  intros group enforce Hpermit Hvalid. subst group enforce.
  unfold_handlers. unfold _require_matching_id.
  rewrite Hpermit, Hvalid. split.
  - intros v Hid Hne. rewrite Hid. by rewrite decide_False.
  - intros [Hid|Hid]; rewrite Hid; [|rewrite decide_True by done];
      by destruct (backend_update_group _ _ _ _) as [[ref|e] b'].
Qed.

(** C10.  A membership handler calls its backend operation with the
    user id and the group id of the path.  Once the lookups of the
    target resolve or miss, the enforcer is called; when it raises,
    that is the outcome; when it permits, the operation is called with
    the path identifiers, as the last call of the run, on the backend
    as it was, and what it raises is what the handler raises.  No other
    operation call is ever made.  For the users listing this holds also
    when the group lookup missed and the target is empty:
    [list_users_in_group] is then called with the path id after
    enforcement, and what it raises for the missing group is what the
    handler raises. *)
Theorem membership_calls_use_path_ids
    (req : request) (call : event) (b : B) :
  path_call req = Some call →
  let '(r, w') := run (GroupAPI.dispatch req) b in
  (∀ ev, ev ∈ trace w' → is_operation ev → ev = call) ∧
  (∀ args, CallEnforce args ∈ trace w' → enforcer_decision args = Ok tt →
           last (trace w') = Some call) ∧
  (∀ group_id e,
     req = ListUsersInGroup group_id →
     backend_get_group group_id b = Raise GroupNotFound →
     let args := EnforceArgs "identity:list_users_in_group"
                             (Some ∅) (Some user_filters) in
     enforcer_decision args = Ok tt →
     backend_list_users_in_group
       group_id (build_driver_hints user_filters) b = Raise e →
     r = Raise e ∧
     trace w' = [CallGetGroup group_id; CallEnforce args; call]) ∧
  (lookups_resolve_or_miss req b →
   ∃ args,
     trace w' !! length (target_lookups req) = Some (CallEnforce args) ∧
     take (length (target_lookups req)) (trace w') = target_lookups req ∧
     action args = action_of req ∧
     (∀ e, enforcer_decision args = Raise e →
           r = Raise e ∧ backend w' = b ∧
           trace w' = (target_lookups req ++ [CallEnforce args])%list) ∧
     (enforcer_decision args = Ok tt →
      trace w' = (target_lookups req ++ [CallEnforce args; call])%list ∧
      backend w' = snd (membership_operation req b) ∧
      match raised_by call b with
      | Some e => r = Raise e
      | None => is_Ok r
      end)).
Proof.
  intros Hcall.
  destruct req; simpl in Hcall; simplify_eq; unfold_handlers;
    unfold user_filters, lookups_resolve_or_miss in *.
  all: repeat (case_match; simplify_eq/=).
  all: resolve_raised.
  all: split_and!;
    [ intros ev Hev Hop; set_unfold in Hev; destruct_or?; subst; done
    | intros args Hin Hdec; set_unfold in Hin; destruct_or?;
      simplify_eq; congruence
    | intros gid e' Hreq Hg; cbv zeta; intros Hdec Hlist; simplify_eq/=;
      try done; try congruence; split; congruence
    | intros Hres; simpl in Hres; lookup_misses; try done;
      (eexists; split_and!;
       [ reflexivity | reflexivity | reflexivity
       | intros e' Hdec;
         first [ congruence | split_and!; [congruence | done | done] ]
       | intros Hdec;
         first [ congruence
               | split_and!; [ reflexivity | rewrite_calls; done
                             | simpl; rewrite_calls; done ] ] ]) ].
Qed.

(** C3.  Every handler runs in one order: the lookups of its
    enforcement target (when it builds one), then the call of the
    enforcer under the action of the request, then the backend operation
    the request asks for.  A run stops before the enforcer only when a
    lookup raised, and then with that exception; once the lookups
    resolve or miss the enforcer is called, and once it permits and the
    steps in between (validation, normalisation, id check, list domain)
    pass, the operation is called and its outcome is the outcome of the
    handler.  So the operation is never called unless the enforcer was
    called before it and permitted; and when the enforcer raises, the
    handler raises the same exception, whatever the operation would
    have answered: the operation is not called and the backend is left
    as it was. *)
Theorem enforcement_precedes_backend (req : request) (b : B) :
  let '(r, w') := run (GroupAPI.dispatch req) b in
  (∃ lookups rest : list event,
     trace w' = (lookups ++ rest)%list ∧
     lookups `prefix_of` target_lookups req ∧
     match rest with
     | [] =>
         ∃ e ev, r = Raise e ∧ last lookups = Some ev ∧
                 raised_by ev b = Some e
     | CallEnforce args :: calls =>
         lookups = target_lookups req ∧
         action args = action_of req ∧
         match calls with
         | [] => ∃ e, r = Raise e
         | [ev] =>
             is_primary req ev ∧ enforcer_decision args = Ok tt ∧
             match raised_by ev b with
             | Some e => r = Raise e
             | None => is_Ok r
             end
         | _ => False
         end
     | _ => False
     end) ∧
  (∀ i ev,
     trace w' !! i = Some ev → is_primary req ev →
     ∃ j args, j < i ∧ trace w' !! j = Some (CallEnforce args) ∧
               enforcer_decision args = Ok tt) ∧
  (∀ args e,
     CallEnforce args ∈ trace w' → enforcer_decision args = Raise e →
     r = Raise e ∧ backend w' = b ∧
     ∀ ev, ev ∈ trace w' → is_primary req ev = false) ∧
  (lookups_resolve_or_miss req b →
   ∃ args,
     trace w' !! length (target_lookups req) = Some (CallEnforce args) ∧
     take (length (target_lookups req)) (trace w') = target_lookups req ∧
     action args = action_of req ∧
     (enforcer_decision args = Ok tt → helpers_pass req →
      ∃ ev,
        trace w' = (target_lookups req ++ [CallEnforce args; ev])%list ∧
        is_primary req ev ∧
        match raised_by ev b with
        | Some e => r = Raise e
        | None => is_Ok r
        end)).
Proof.
  destruct req; unfold_handlers;
    unfold lookups_resolve_or_miss, helpers_pass.
  all: repeat (case_match; simplify_eq/=).
  all: split_and!;
    [ match goal with
      | |- ∃ l r, ?tr = (l ++ r)%list ∧ l `prefix_of` ?tl ∧ _ =>
          exists (take (length tl) tr), (drop (length tl) tr); simpl;
          split_and!; try done; try (eexists; reflexivity);
          try (apply bool_decide_pack; done);
          try (by destruct (_ : unit));
          try (eexists _, _; split_and!; [reflexivity | reflexivity |];
               simpl; rewrite_calls; done);
          try (rewrite_calls; done)
      end
    | intros i ev Hi Hp;
      repeat (destruct i as [|i]; simplify_eq/=; try done);
      first [ exists 0; eexists; split_and!;
              [lia | reflexivity | by destruct (_ : unit)]
            | exists 1; eexists; split_and!;
              [lia | reflexivity | by destruct (_ : unit)]
            | exists 2; eexists; split_and!;
              [lia | reflexivity | by destruct (_ : unit)] ]
    | intros args e' Hin Hdec; set_unfold in Hin; destruct_or?;
      simplify_eq; try congruence;
      (split_and!; [congruence | done |
        intros ev Hev; set_unfold in Hev; destruct_or?; by subst])
    | intros Hres; simpl in Hres; lookup_misses; try done;
      (eexists; split_and!; [reflexivity | reflexivity | reflexivity |]);
      intros Hdec Hpass; simpl in Hpass; destruct_and?; try done;
      try congruence;
      (eexists; split_and!;
       [ reflexivity | simpl; try apply bool_decide_pack; done
       | simpl; rewrite_calls; done ]) ].
Qed.

End properties.

(** ** The theorems on the backend in memory *)

(** The builder on a backend that holds group g1 and no user u1. *)
Lemma build_target_absorbs_not_found_witness :
  resolves_or_misses (memory.get_group "g1" store_g1) GroupNotFound ∧
  resolves_or_misses (memory.get_user "u1" store_g1) UserNotFound ∧
  ∃ target : target_dict,
    run (UserGroupCRUDResource._build_enforcement_target_attr
           (api := memory.api) "u1" "g1") store_g1
    = (Ok target, World store_g1 [CallGetGroup "g1"; CallGetUser "u1"]) ∧
    (is_Some (target !! "group") ↔ is_Ok (memory.get_group "g1" store_g1)) ∧
    (is_Some (target !! "user") ↔ is_Ok (memory.get_user "u1" store_g1)) ∧
    (memory.get_group "g1" store_g1 = Raise GroupNotFound →
     memory.get_user "u1" store_g1 = Raise UserNotFound →
     target = ∅).
Proof.
  assert (Hg : resolves_or_misses (memory.get_group "g1" store_g1)
                                  GroupNotFound)
    by (apply ok_resolves; vm_compute; exact I).
  assert (Hu : resolves_or_misses (memory.get_user "u1" store_g1)
                                  UserNotFound)
    by (apply raise_resolves; vm_compute; reflexivity).
  split; [exact Hg|]. split; [exact Hu|].
  exact (build_target_absorbs_not_found
           (api := memory.api) "u1" "g1" store_g1 Hg Hu).
Defined.

(** A caller of domain d2 adds u1 to g1, once on a backend that holds
    both (in domain d1) and once on an empty backend. *)
Lemma denied_caller_sees_forbidden_witness :
  let req := AddUserToGroup "g1" "u1" in
  let '(r1, w1) :=
    run (GroupAPI.dispatch (api := memory.api)
           (enforcer := domain_policy "d2") (base := admin_base) req)
        store_g1_u1 in
  let '(r2, w2) :=
    run (GroupAPI.dispatch (api := memory.api)
           (enforcer := domain_policy "d2") (base := admin_base) req)
        empty_store in
  r1 = Raise Forbidden ∧ r2 = r1 ∧
  backend w1 = store_g1_u1 ∧ backend w2 = empty_store ∧
  (∀ ev, ev ∈ trace w1 ∨ ev ∈ trace w2 → is_primary req ev = false).
Proof.
  apply (denied_caller_sees_forbidden
           (api := memory.api) (enforcer := domain_policy "d2")
           (base := admin_base)
           (AddUserToGroup "g1" "u1") "u1" "g1" store_g1_u1 empty_store).
  - right; left.
  - apply ok_resolves; vm_compute; exact I.
  - apply ok_resolves; vm_compute; exact I.
  - apply raise_resolves; vm_compute; reflexivity.
  - apply raise_resolves; vm_compute; reflexivity.
  - intros t Ht.
    assert (E : fst (run (UserGroupCRUDResource._build_enforcement_target_attr
                            (api := memory.api) "u1" "g1") store_g1_u1)
                = Ok (<["user" := u1]> (<["group" := g1]> ∅)))
      by (vm_compute; reflexivity).
    rewrite E in Ht. injection Ht as <-. vm_compute; reflexivity.
  - intros t Ht.
    assert (E : fst (run (UserGroupCRUDResource._build_enforcement_target_attr
                            (api := memory.api) "u1" "g1") empty_store)
                = Ok ∅)
      by (vm_compute; reflexivity).
    rewrite E in Ht. injection Ht as <-. vm_compute; reflexivity.
Defined.

(** A permitted caller deletes g1, once where it exists and once where
    it does not. *)
Lemma delete_group_outcome_witness :
  (let '(r, w') :=
     run (GroupsResource.delete (api := memory.api)
            (enforcer := action_policy ["identity:delete_group"])
            (base := admin_base) "g1") store_g1 in
   r = Ok (WithStatus None NO_CONTENT)) ∧
  (let '(r, w') :=
     run (GroupsResource.delete (api := memory.api)
            (enforcer := action_policy ["identity:delete_group"])
            (base := admin_base) "g1") empty_store in
   r = Raise GroupNotFound).
Proof.
  split.
  - pose proof (delete_group_outcome
                  (api := memory.api)
                  (enforcer := action_policy ["identity:delete_group"])
                  (base := admin_base) "g1" store_g1) as H.
    destruct (run _ store_g1) as [r w'].
    apply H.
    + vm_compute; reflexivity.
    + intros _; vm_compute; exact I.
    + intros Hg. exfalso. revert Hg. apply ok_is_not_raise.
      vm_compute; exact I.
    + vm_compute; exact I.
  - pose proof (delete_group_outcome
                  (api := memory.api)
                  (enforcer := action_policy ["identity:delete_group"])
                  (base := admin_base) "g1" empty_store) as H.
    destruct (run _ empty_store) as [r w'].
    apply H.
    + vm_compute; reflexivity.
    + intros Hok; vm_compute in Hok; destruct Hok.
    + intros _; vm_compute; reflexivity.
    + vm_compute; reflexivity.
Defined.

(** A permitted caller adds the absent user u1 to the group g1. *)
Lemma add_missing_user_propagates_witness :
  let permit := action_policy ["identity:add_user_to_group"] in
  run (UserGroupCRUDResource._build_enforcement_target_attr
         (api := memory.api) "u1" "g1") store_g1
  = (Ok {[ "group" := g1 ]},
     World store_g1 [CallGetGroup "g1"; CallGetUser "u1"]) ∧
  run (UserGroupCRUDResource.put (api := memory.api) (enforcer := permit)
         (base := admin_base) "g1" "u1") store_g1
  = (Raise UserNotFound,
     World store_g1
           [CallGetGroup "g1"; CallGetUser "u1";
            CallEnforce (EnforceArgs "identity:add_user_to_group"
                                     (Some {[ "group" := g1 ]}) None);
            CallAddUserToGroup "u1" "g1"]).
Proof.
  apply (add_missing_user_propagates
           (api := memory.api)
           (enforcer := action_policy ["identity:add_user_to_group"])
           (base := admin_base) "g1" "u1" store_g1 store_g1 g1);
    vm_compute; reflexivity.
Defined.

(** A permitted caller lists the users of g1, of which u1 is a member. *)
Lemma list_users_in_group_flow_witness :
  let permit := action_policy ["identity:list_users_in_group"] in
  let args := EnforceArgs "identity:list_users_in_group"
                          (Some {[ "group" := g1 ]}) (Some user_filters) in
  run (GroupUsersResource.get (api := memory.api) (enforcer := permit)
         (base := admin_base) "g1") store_member
  = (Ok (Bare (Collection "users" [u1])),
     World store_member [CallGetGroup "g1"; CallEnforce args;
                         CallListUsersInGroup "g1" []]).
Proof.
  pose proof (list_users_in_group_flow
                (api := memory.api)
                (enforcer := action_policy ["identity:list_users_in_group"])
                (base := admin_base) "g1" store_member) as H.
  cbv zeta in H |- *. rewrite H.
  - vm_compute; reflexivity.
  - apply ok_resolves; vm_compute; exact I.
Defined.

(** A backend that is unavailable: the group lookup raises an exception
    of another class, and every membership handler raises it. *)
Lemma target_masking_is_type_specific_witness :
  let e := OtherError "Unavailable" in
  fst (run (UserGroupCRUDResource._build_enforcement_target_attr
              (api := unavailable) "u1" "g1") store_g1_u1) = Raise e ∧
  (∀ req, req ∈ [CheckUserInGroup "g1" "u1"; AddUserToGroup "g1" "u1";
                 RemoveUserFromGroup "g1" "u1"] →
     let '(r, w') :=
       run (GroupAPI.dispatch (api := unavailable)
              (enforcer := action_policy []) (base := admin_base) req)
           store_g1_u1 in
     r = Raise e ∧ backend w' = store_g1_u1 ∧
     ∀ ev, ev ∈ trace w' → is_enforce ev = false) ∧
  (backend_get_group (IdentityAPI := unavailable) "g1" store_g1_u1
   = Raise e → e ≠ GroupNotFound →
     let '(r, w') :=
       run (GroupUsersResource.get (api := unavailable)
              (enforcer := action_policy []) (base := admin_base) "g1")
           store_g1_u1 in
     r = Raise e ∧ backend w' = store_g1_u1 ∧
     ∀ ev, ev ∈ trace w' → is_enforce ev = false).
Proof.
  apply (target_masking_is_type_specific
           (api := unavailable) (enforcer := action_policy [])
           (base := admin_base) "u1" "g1" store_g1_u1
           (OtherError "Unavailable")).
  left. split; [reflexivity | intros H; discriminate H].
Defined.

(** A permitted caller checks the member u1 of g1. *)
Lemma membership_calls_use_path_ids_witness :
  let permit := action_policy ["identity:check_user_in_group"] in
  let req := CheckUserInGroup "g1" "u1" in
  let call := CallCheckUserInGroup "u1" "g1" in
  let '(r, w') :=
    run (GroupAPI.dispatch (api := memory.api) (enforcer := permit)
           (base := admin_base) req) store_member in
  (∀ ev, ev ∈ trace w' → is_operation ev → ev = call) ∧
  (∀ args, CallEnforce args ∈ trace w' →
           enforcer_decision (RBACEnforcer := permit) args = Ok tt →
           last (trace w') = Some call) ∧
  (∀ group_id e,
     req = ListUsersInGroup group_id →
     memory.get_group group_id store_member = Raise GroupNotFound →
     let args := EnforceArgs "identity:list_users_in_group"
                             (Some ∅) (Some user_filters) in
     enforcer_decision (RBACEnforcer := permit) args = Ok tt →
     memory.list_users_in_group group_id [] store_member = Raise e →
     r = Raise e ∧
     trace w' = [CallGetGroup group_id; CallEnforce args; call]) ∧
  (lookups_resolve_or_miss (api := memory.api) req store_member →
   ∃ args,
     trace w' !! length (target_lookups req) = Some (CallEnforce args) ∧
     take (length (target_lookups req)) (trace w') = target_lookups req ∧
     action args = action_of req ∧
     (∀ e, enforcer_decision (RBACEnforcer := permit) args = Raise e →
           r = Raise e ∧ backend w' = store_member ∧
           trace w' = (target_lookups req ++ [CallEnforce args])%list) ∧
     (enforcer_decision (RBACEnforcer := permit) args = Ok tt →
      trace w' = (target_lookups req ++ [CallEnforce args; call])%list ∧
      backend w'
      = snd (membership_operation (api := memory.api) (base := admin_base)
               req store_member) ∧
      match raised_by (api := memory.api) (enforcer := permit)
                      (base := admin_base) call store_member with
      | Some e => r = Raise e
      | None => is_Ok r
      end)).
Proof.
  apply (membership_calls_use_path_ids
           (api := memory.api)
           (enforcer := action_policy ["identity:check_user_in_group"])
           (base := admin_base)
           (CheckUserInGroup "g1" "u1") (CallCheckUserInGroup "u1" "g1")
           store_member).
  reflexivity.
Defined.

(** A permitted caller patches g1 with a body that names another id. *)
Lemma patch_checks_body_id_witness :
  let permit := action_policy ["identity:update_group"] in
  let body : gmap string dict :=
    {[ "group" := {[ "id" := VStr "g9"; "name" := VStr "ops" ]} ]} in
  run (GroupsResource.patch (api := memory.api) (enforcer := permit)
         (base := admin_base) body "g1") store_g1
  = (Raise ValidationError,
     World store_g1
           [CallEnforce (EnforceArgs "identity:update_group" None None)]).
Proof.
  refine (proj1 (patch_checks_body_id
           (api := memory.api)
           (enforcer := action_policy ["identity:update_group"])
           (base := admin_base)
           {[ "group" := {[ "id" := VStr "g9"; "name" := VStr "ops" ]} ]}
           "g1" store_g1 _ _) (VStr "g9") _ _).
  - vm_compute; reflexivity.
  - vm_compute; reflexivity.
  - vm_compute; reflexivity.
  - intros H; discriminate H.
Defined.

(** C4 as stated fails.  A caller the enforcer denies who patches g1
    with a body naming another id gets [Forbidden], not
    [ValidationError]; and a permitted caller whose body has no id but
    does not pass the schema validator gets [ValidationError] and
    [update_group] is not called. *)
Lemma patch_outcome_depends_on_enforcer_and_schema :
  let body : gmap string dict :=
    {[ "group" := {[ "id" := VStr "g9"; "name" := VStr "ops" ]} ]} in
  let denied_run :=
    run (GroupsResource.patch (api := memory.api)
           (enforcer := action_policy []) (base := admin_base) body "g1")
        store_g1 in
  let body' : gmap string dict := {[ "group" := {[ "name" := VNum 7 ]} ]} in
  let invalid_run :=
    run (GroupsResource.patch (api := memory.api)
           (enforcer := action_policy ["identity:update_group"])
           (base := admin_base) body' "g1")
        store_g1 in
  (default ∅ (body !! "group") !! "id" = Some (VStr "g9") ∧
   VStr "g9" ≠ VStr "g1" ∧
   fst denied_run = Raise Forbidden ∧
   fst denied_run ≠ Raise ValidationError) ∧
  (default ∅ (body' !! "group") !! "id" = None ∧
   fst invalid_run = Raise ValidationError ∧
   trace (snd invalid_run)
   = [CallEnforce (EnforceArgs "identity:update_group" None None)]).
Proof.
  cbv zeta. split_and!.
  - vm_compute; reflexivity.
  - intros H; discriminate H.
  - vm_compute; reflexivity.
  - intros H.
    assert (E : fst (run (GroupsResource.patch (api := memory.api)
                (enforcer := action_policy []) (base := admin_base)
                {[ "group" := {[ "id" := VStr "g9"; "name" := VStr "ops" ]} ]}
                "g1") store_g1) = Raise Forbidden)
      by (vm_compute; reflexivity).
    rewrite E in H. discriminate H.
  - vm_compute; reflexivity.
  - vm_compute; reflexivity.
  - vm_compute; reflexivity.
Qed.

(** ** Further properties of the handlers *)

Section more_properties.
Context {B Body : Type}.
Context {api : IdentityAPI B} {enforcer : RBACEnforcer}.
Context {base : ResourceBase Body}.

(** X4.  No handler masks its operation: once the operation of the
    request has been called, at whatever place in the run, the handler
    raises exactly what the operation raised, and returns normally when
    the operation did. *)
Theorem primary_outcome_is_handler_outcome (req : request) (b : B) :
  let '(r, w') := run (GroupAPI.dispatch req) b in
  ∀ ev, ev ∈ trace w' → is_primary req ev →
        match raised_by ev b with
        | Some e => r = Raise e
        | None => is_Ok r
        end.
Proof.
  destruct req; unfold_handlers.
  all: repeat (case_match; simplify_eq/=).
  all: intros ev Hin Hp; set_unfold in Hin; destruct_or?;
    simplify_eq/=; try done.
  all: rewrite_calls; done.
Qed.

(** X1.  A request to [GroupsResource] that the enforcer refuses makes
    no call to the identity backend at all: the enforcer is called
    first, without a target, and what it raises is the outcome. *)
Theorem groups_request_denied_without_backend
    (req : request) (e : exn) (b : B) :
  is_groups_request req →
  enforcer_decision (EnforceArgs (action_of req) None (filters_of req))
  = Raise e →
  run (GroupAPI.dispatch req) b
  = (Raise e,
     World b [CallEnforce
                (EnforceArgs (action_of req) None (filters_of req))]).
Proof.
  intros Hreq Hdeny.
  destruct req; try done; unfold_handlers; by rewrite Hdeny.
Qed.

(** When the builder returns, it has made both lookups and nothing
    else. *)
Lemma build_target_ok_run (user_id group_id : string) (b : B)
    (t : target_dict) :
  fst (run (UserGroupCRUDResource._build_enforcement_target_attr
              user_id group_id) b) = Ok t →
  run (UserGroupCRUDResource._build_enforcement_target_attr
         user_id group_id) b
  = (Ok t, World b [CallGetGroup group_id; CallGetUser user_id]).
Proof.
  unfold_handlers.
  destruct (backend_get_group group_id b) as [g|eg]; simpl;
    [| destruct (decide (eg = GroupNotFound)); simpl; [|done] ];
    (destruct (backend_get_user user_id b) as [u|eu]; simpl;
     [| destruct (decide (eu = UserNotFound)); simpl; [|done] ]);
    by intros [= ->].
Qed.

(** X2.  The users listing does not tell a refused caller whether the
    group exists: on two backends where the group lookup resolves or
    misses and the enforcer refuses the target built, both runs end in
    the same [Forbidden] after the lookup and the enforcer call, and
    [list_users_in_group] is not called. *)
Theorem denied_listing_sees_forbidden (group_id : string) (b1 b2 : B) :
  let target (b : B) : target_dict :=
    match backend_get_group group_id b with
    | Ok group => {[ "group" := group ]}
    | Raise _ => ∅
    end in
  let args (b : B) :=
    EnforceArgs "identity:list_users_in_group"
                (Some (target b)) (Some user_filters) in
  resolves_or_misses (backend_get_group group_id b1) GroupNotFound →
  resolves_or_misses (backend_get_group group_id b2) GroupNotFound →
  enforcer_decision (args b1) = Raise Forbidden →
  enforcer_decision (args b2) = Raise Forbidden →
  run (GroupUsersResource.get group_id) b1
  = (Raise Forbidden,
     World b1 [CallGetGroup group_id; CallEnforce (args b1)]) ∧
  run (GroupUsersResource.get group_id) b2
  = (Raise Forbidden,
     World b2 [CallGetGroup group_id; CallEnforce (args b2)]).
Proof.
  intros target args Hg1 Hg2 Hd1 Hd2. subst target args.
  unfold_handlers. unfold user_filters in *. split.
  - destruct (backend_get_group group_id b1) as [g|eg]; simpl in *;
      [ rewrite insert_empty | rewrite (Hg1 eg eq_refl); simpl ];
      by rewrite Hd1.
  - destruct (backend_get_group group_id b2) as [g|eg]; simpl in *;
      [ rewrite insert_empty | rewrite (Hg2 eg eq_refl); simpl ];
      by rewrite Hd2.
Qed.

(** X3.  A check, add or remove request whose target was built runs to
    the end in one way: the enforcer is called with the target the
    builder returned (the empty mapping when both entities are absent,
    never no target); when it refuses, its exception is the outcome;
    when it permits, the operation is called with the path identifiers,
    its exception is the outcome, and its success gives status 204 with
    no body. *)
Theorem membership_flow
    (req : request) (user_id group_id : string) (call : event)
    (t : target_dict) (b : B) :
  req ∈ [CheckUserInGroup group_id user_id;
         AddUserToGroup group_id user_id;
         RemoveUserFromGroup group_id user_id] →
  path_call req = Some call →
  fst (run (UserGroupCRUDResource._build_enforcement_target_attr
              user_id group_id) b) = Ok t →
  let args := EnforceArgs (action_of req) (Some t) None in
  let lookups := [CallGetGroup group_id; CallGetUser user_id] in
  (backend_get_group group_id b = Raise GroupNotFound →
   backend_get_user user_id b = Raise UserNotFound → t = ∅) ∧
  run (GroupAPI.dispatch req) b
  = match enforcer_decision args with
    | Raise e => (Raise e, World b (lookups ++ [CallEnforce args]))
    | Ok _ =>
        (match fst (membership_operation req b) with
         | Ok _ => Ok (WithStatus None NO_CONTENT)
         | Raise e => Raise e
         end,
         World (snd (membership_operation req b))
               (lookups ++ [CallEnforce args; call]))
    end.
Proof.
  intros Hreq Hcall Ht args lookups. subst args lookups. split.
  - intros Hg Hu. revert Ht. unfold_handlers.
    rewrite Hg; simpl. rewrite Hu; simpl. by intros [= <-].
  - apply build_target_ok_run in Ht. unfold run in Ht.
    rewrite !elem_of_cons, elem_of_nil in Hreq.
    destruct Hreq as [->|[->|[->|[]]]]; simpl in Hcall;
      injection Hcall as <-;
      unfold run, GroupAPI.dispatch, UserGroupCRUDResource.get,
        UserGroupCRUDResource.put, UserGroupCRUDResource.delete,
        mbind, M_bind, bind;
      rewrite Ht; unfold ENFORCER.enforce_call, log,
        identity_api.check_user_in_group, identity_api.add_user_to_group,
        identity_api.remove_user_from_group, query, command; simpl;
      destruct (enforcer_decision _); simpl; try done.
    + by destruct (backend_check_user_in_group _ _ _).
    + by destruct (backend_add_user_to_group _ _ _ _) as [[|] ?].
    + by destruct (backend_remove_user_from_group _ _ _ _) as [[|] ?].
Qed.

(** X5.  The users listing builds the group part of the target the
    membership handlers build: when the builder returns a target for
    the group and any user, the listing calls the enforcer, and with
    that target less its "user" entry. *)
Theorem listing_target_is_group_part
    (user_id group_id : string) (t : target_dict) (b : B) :
  fst (run (UserGroupCRUDResource._build_enforcement_target_attr
              user_id group_id) b) = Ok t →
  let '(r, w') := run (GroupUsersResource.get group_id) b in
  trace w' !! 1
  = Some (CallEnforce (EnforceArgs "identity:list_users_in_group"
                                   (Some (delete "user" t))
                                   (Some user_filters))) ∧
  ∀ i args, trace w' !! i = Some (CallEnforce args) → i = 1.
Proof.
  unfold_handlers. unfold user_filters.
  assert (Hd1 : ∀ (g u : dict),
    delete "user" (<["user" := u]> (<["group" := g]> (∅ : target_dict)))
    = <["group" := g]> ∅).
  { intros g u. rewrite delete_insert_eq.
    apply delete_id. by rewrite lookup_insert_ne. }
  assert (Hd2 : ∀ (g : dict),
    delete "user" (<["group" := g]> (∅ : target_dict))
    = <["group" := g]> ∅).
  { intros g. apply delete_id. by rewrite lookup_insert_ne. }
  assert (Hd3 : ∀ (u : dict),
    delete "user" (<["user" := u]> (∅ : target_dict)) = ∅).
  { intros u. by rewrite delete_insert_eq, delete_empty. }
  assert (Hd4 : delete "user" (∅ : target_dict) = ∅)
    by apply delete_empty.
  destruct (backend_get_group group_id b) as [g|eg]; simpl;
    [| destruct (decide (eg = GroupNotFound)); simpl; [|done] ];
    (destruct (backend_get_user user_id b) as [u|eu]; simpl;
     [| destruct (decide (eu = UserNotFound)); simpl; [|done] ]);
    intros [= <-]; rewrite ?Hd1, ?Hd2, ?Hd3, ?Hd4;
    repeat (case_match; simplify_eq/=);
    (split; [done|]);
    intros i args Hi;
    repeat (destruct i as [|i]; simplify_eq/=; try done).
Qed.

(** X6.  [create_group] is called only after the enforcer has permitted
    and the schema validator has accepted the group of the body as it
    was sent (an empty group when the body has none); it receives that
    group normalised. *)
Theorem create_group_only_after_validation
    (request_body_json : gmap string dict) (created : dict) (b : B) :
  let group := default ∅ (request_body_json !! "group") in
  CallCreateGroup created
    ∈ trace (snd (run (GroupsResource.post request_body_json) b)) →
  enforcer_decision (EnforceArgs "identity:create_group" None None)
  = Ok tt ∧
  lazy_validate group_create group = Ok tt ∧
  _normalize_domain_id (_normalize_dict group) = Ok created ∧
  snd (run (GroupsResource.post request_body_json) b)
  = World (snd (backend_create_group created audit_initiator b))
          [CallEnforce (EnforceArgs "identity:create_group" None None);
           CallCreateGroup created].
Proof.
  intros group. subst group. unfold_handlers.
  repeat (case_match; simplify_eq/=);
    intros Hin; set_unfold in Hin; destruct_or?; simplify_eq.
  all: repeat destruct select unit.
  all: split_and!; try done.
  all: match goal with
       | H : backend_create_group _ _ _ = _ |- _ => by rewrite H
       end.
Qed.

(** X7.  [update_group] is called only after the enforcer has
    permitted, the schema validator has accepted the group of the body
    and [_require_matching_id] has accepted it against the path id; it
    receives the path id and the group as it was sent, not
    normalised. *)
Theorem update_group_only_after_checks
    (request_body_json : gmap string dict) (group_id updated_id : string)
    (updated : dict) (b : B) :
  let group := default ∅ (request_body_json !! "group") in
  CallUpdateGroup updated_id updated
    ∈ trace (snd (run (GroupsResource.patch request_body_json group_id) b)) →
  updated_id = group_id ∧ updated = group ∧
  enforcer_decision (EnforceArgs "identity:update_group" None None)
  = Ok tt ∧
  lazy_validate group_update group = Ok tt ∧
  _require_matching_id group_id group = Ok tt.
Proof.
  intros group. subst group. unfold_handlers.
  repeat (case_match; simplify_eq/=);
    intros Hin; set_unfold in Hin; destruct_or?; simplify_eq.
  all: repeat destruct select unit.
  all: done.
Qed.

(** X8.  In every run the enforcer is called at most once, right after
    the lookups of the target, under the action of the request and with
    the filters the request declares.  [GroupsResource] passes no
    target; the users listing passes the group alone, or the empty
    mapping when the lookup missed; check, add and remove pass what the
    target builder returned. *)
Theorem enforcer_called_once_as_declared (req : request) (b : B) :
  let '(r, w') := run (GroupAPI.dispatch req) b in
  ∀ i args,
    trace w' !! i = Some (CallEnforce args) →
    i = length (target_lookups req) ∧
    action args = action_of req ∧
    filters args = filters_of req ∧
    match req with
    | ListUsersInGroup group_id =>
        target_attr args
        = Some match backend_get_group group_id b with
               | Ok group => {[ "group" := group ]}
               | Raise _ => ∅
               end
    | CheckUserInGroup group_id user_id
    | AddUserToGroup group_id user_id
    | RemoveUserFromGroup group_id user_id =>
        ∃ t, target_attr args = Some t ∧
             fst (run (UserGroupCRUDResource._build_enforcement_target_attr
                         user_id group_id) b) = Ok t
    | _ => target_attr args = None
    end.
Proof.
  destruct req; unfold_handlers; unfold user_filters.
  all: repeat (case_match; simplify_eq/=).
  all: intros i args Hi;
    repeat (destruct i as [|i]; simplify_eq/=; try done).
  all: rewrite ?insert_empty; split_and!; eauto.
Qed.

(** X9.  A handler returns normally only when its operation succeeded,
    and then with the response of its verb: the wrapped group for get
    and update, the wrapped group with status 201 for create, the
    wrapped collection for the listings ("groups", and "users" by
    name), and no body with status 204 for delete, check, add and
    remove. *)
Theorem success_response_shape
    (req : request) (resp : response Body) (b : B) :
  fst (run (GroupAPI.dispatch req) b) = Ok resp →
  match req with
  | GetGroup group_id =>
      ∃ group, backend_get_group group_id b = Ok group ∧
               resp = Bare (wrap_member "group" group)
  | ListGroups =>
      let hints := build_driver_hints ["domain_id"; "name"] in
      ∃ domain refs,
        _get_domain_id_for_list_request = Ok domain ∧
        backend_list_groups domain hints b = Ok refs ∧
        resp = Bare (wrap_collection (Some "groups") refs hints None)
  | CreateGroup body =>
      ∃ group ref,
        _normalize_domain_id (_normalize_dict (default ∅ (body !! "group")))
        = Ok group ∧
        fst (backend_create_group group audit_initiator b) = Ok ref ∧
        resp = WithStatus (Some (wrap_member "group" ref)) CREATED
  | UpdateGroup group_id body =>
      ∃ ref,
        fst (backend_update_group
               group_id (default ∅ (body !! "group")) audit_initiator b)
        = Ok ref ∧
        resp = Bare (wrap_member "group" ref)
  | DeleteGroup group_id =>
      is_Ok (fst (backend_delete_group group_id audit_initiator b)) ∧
      resp = WithStatus None NO_CONTENT
  | ListUsersInGroup group_id =>
      let hints := build_driver_hints user_filters in
      ∃ refs,
        backend_list_users_in_group group_id hints b = Ok refs ∧
        resp = Bare (wrap_collection None refs hints (Some "users"))
  | CheckUserInGroup _ _ | AddUserToGroup _ _ | RemoveUserFromGroup _ _ =>
      is_Ok (fst (membership_operation req b)) ∧
      resp = WithStatus None NO_CONTENT
  end.
Proof.
  destruct req; unfold_handlers; unfold user_filters.
  all: repeat (case_match; simplify_eq/=); try done.
  all: intros [= <-].
  all: repeat match goal with H : _ = _ |- _ => rewrite H end; simpl.
  all: eauto 10.
  eexists _, _; split_and!; [reflexivity | | reflexivity].
  match goal with
  | H : backend_create_group _ _ _ = _ |- _ => by rewrite H
  end.
Qed.

(** X10.  A request changes the backend only through the operation it
    asks for, after the enforcer has permitted: every other run, be it
    refused, stopped by a lookup, the validator or a helper, or a
    request that only reads, leaves the backend as it was. *)
Theorem backend_changes_only_when_permitted (req : request) (b : B) :
  let '(r, w') := run (GroupAPI.dispatch req) b in
  backend w' = b ∨
  ∃ args ev,
    trace w' = (target_lookups req ++ [CallEnforce args; ev])%list ∧
    enforcer_decision args = Ok tt ∧
    is_primary req ev ∧ is_mutation ev.
Proof.
  destruct req; unfold_handlers.
  all: repeat (case_match; simplify_eq/=).
  all: repeat destruct select unit.
  all: first
    [ by left
    | right; eexists _, _; split_and!;
      [ reflexivity | eassumption
      | simpl; try apply bool_decide_pack; done | done ] ].
Qed.

End more_properties.

(** ** The further properties on the backend in memory *)

(** A refused caller deletes g1: only the enforcer is called. *)
Lemma groups_request_denied_without_backend_witness :
  run (GroupAPI.dispatch (api := memory.api) (enforcer := action_policy [])
         (base := admin_base) (DeleteGroup "g1")) store_g1
  = (Raise Forbidden,
     World store_g1
           [CallEnforce (EnforceArgs "identity:delete_group" None None)]).
Proof.
  apply (groups_request_denied_without_backend
           (api := memory.api) (enforcer := action_policy [])
           (base := admin_base) (DeleteGroup "g1") Forbidden store_g1).
  - exact I.
  - vm_compute; reflexivity.
Defined.

(** A caller of domain d2 lists the users of g1, where it exists (in
    domain d1) and where it does not. *)
Lemma denied_listing_sees_forbidden_witness :
  fst (run (GroupUsersResource.get (api := memory.api)
              (enforcer := domain_policy "d2") (base := admin_base) "g1")
           store_g1) = Raise Forbidden ∧
  fst (run (GroupUsersResource.get (api := memory.api)
              (enforcer := domain_policy "d2") (base := admin_base) "g1")
           empty_store) = Raise Forbidden.
Proof.
  pose proof (denied_listing_sees_forbidden
                (api := memory.api) (enforcer := domain_policy "d2")
                (base := admin_base) "g1" store_g1 empty_store) as H.
  cbv zeta in H. destruct H as [H1 H2].
  - apply ok_resolves; vm_compute; exact I.
  - apply raise_resolves; vm_compute; reflexivity.
  - vm_compute; reflexivity.
  - vm_compute; reflexivity.
  - rewrite H1, H2. split; reflexivity.
Defined.

(** A permitted caller removes the member u1 from g1. *)
Lemma membership_flow_witness :
  fst (run (GroupAPI.dispatch (api := memory.api)
              (enforcer := action_policy ["identity:remove_user_from_group"])
              (base := admin_base) (RemoveUserFromGroup "g1" "u1"))
           store_member)
  = Ok (WithStatus None NO_CONTENT).
Proof.
  pose proof (membership_flow
                (api := memory.api)
                (enforcer := action_policy ["identity:remove_user_from_group"])
                (base := admin_base)
                (RemoveUserFromGroup "g1" "u1") "u1" "g1"
                (CallRemoveUserFromGroup "u1" "g1")
                (<["user" := u1]> (<["group" := g1]> ∅)) store_member) as H.
  cbv zeta in H. destruct H as [_ H].
  - right; right; left.
  - reflexivity.
  - vm_compute; reflexivity.
  - rewrite H. vm_compute; reflexivity.
Defined.

(** The listing of g1 on a backend that holds g1 and u1. *)
Lemma listing_target_is_group_part_witness :
  let t : target_dict := <["user" := u1]> (<["group" := g1]> ∅) in
  let '(r, w') :=
    run (GroupUsersResource.get (api := memory.api)
           (enforcer := action_policy []) (base := admin_base) "g1")
        store_g1_u1 in
  trace w' !! 1
  = Some (CallEnforce (EnforceArgs "identity:list_users_in_group"
                                   (Some (delete "user" t))
                                   (Some user_filters))) ∧
  ∀ i args, trace w' !! i = Some (CallEnforce args) → i = 1.
Proof.
  apply (listing_target_is_group_part
           (api := memory.api) (enforcer := action_policy [])
           (base := admin_base) "u1" "g1"
           (<["user" := u1]> (<["group" := g1]> ∅)) store_g1_u1).
  vm_compute; reflexivity.
Defined.

(** A permitted caller creates a group named dev. *)
Lemma create_group_only_after_validation_witness :
  let body : gmap string dict := {[ "group" := {[ "name" := VStr "dev" ]} ]} in
  lazy_validate (ResourceBase := admin_base) group_create
                (default ∅ (body !! "group")) = Ok tt.
Proof.
  refine (proj1 (proj2 (create_group_only_after_validation
           (api := memory.api)
           (enforcer := action_policy ["identity:create_group"])
           (base := admin_base)
           {[ "group" := {[ "name" := VStr "dev" ]} ]}
           {[ "name" := VStr "dev" ]} empty_store _))).
  assert (E : trace (snd (run (GroupsResource.post (api := memory.api)
                (enforcer := action_policy ["identity:create_group"])
                (base := admin_base)
                {[ "group" := {[ "name" := VStr "dev" ]} ]}) empty_store))
              = [CallEnforce (EnforceArgs "identity:create_group" None None);
                 CallCreateGroup {[ "name" := VStr "dev" ]}])
    by (vm_compute; reflexivity).
  rewrite E. right; left.
Defined.

(** A permitted caller renames g1. *)
Lemma update_group_only_after_checks_witness :
  let body : gmap string dict := {[ "group" := {[ "name" := VStr "sre" ]} ]} in
  _require_matching_id "g1" (default ∅ (body !! "group")) = Ok tt.
Proof.
  refine (proj2 (proj2 (proj2 (proj2 (update_group_only_after_checks
           (api := memory.api)
           (enforcer := action_policy ["identity:update_group"])
           (base := admin_base)
           {[ "group" := {[ "name" := VStr "sre" ]} ]}
           "g1" "g1" {[ "name" := VStr "sre" ]} store_g1 _))))).
  assert (E : trace (snd (run (GroupsResource.patch (api := memory.api)
                (enforcer := action_policy ["identity:update_group"])
                (base := admin_base)
                {[ "group" := {[ "name" := VStr "sre" ]} ]} "g1") store_g1))
              = [CallEnforce (EnforceArgs "identity:update_group" None None);
                 CallUpdateGroup "g1" {[ "name" := VStr "sre" ]}])
    by (vm_compute; reflexivity).
  rewrite E. right; left.
Defined.

(** A permitted caller gets g1. *)
Lemma success_response_shape_witness :
  ∃ group, memory.get_group "g1" store_g1 = Ok group ∧
           Bare (Member "group" g1) = Bare (Member "group" group).
Proof.
  apply (success_response_shape
           (api := memory.api)
           (enforcer := action_policy ["identity:get_group"])
           (base := admin_base)
           (GetGroup "g1") (Bare (Member "group" g1)) store_g1).
  vm_compute; reflexivity.
Defined.
